(** * Rows-per-page options of the adoption-insights table footer

    Shallow embedding of
    [plugins/adoption-insights/src/components/CardFooter/TableFooterPagination.tsx]:
    the pure helper [generateRowsPerPageOptions] and the display decision of
    the [TableFooterPagination] component (render nothing or render the
    pagination control with the computed options).

    Numbers.  The argument [totalCount] ranges over the integers, modelled
    as [Z]; every integer-valued JavaScript number compares with the
    constants 3, 5, 10 and 20 exactly as its mathematical value does, and the
    only addition the function performs is [lastValidDefault + 1] on a value
    that is a default candidate or [-Infinity].  [Math.max()] of no arguments
    is [-Infinity], which the code meets when no candidate lies below
    [totalCount]; the type [JS.number] adds that one value to [Z]. *)

From Stdlib Require Import ZArith List String Bool Lia.
From Stdlib Require Import Sorting.Sorted DecimalString.
From Stdlib Require DecimalZ DecimalPos.
Import ListNotations.
Open Scope Z_scope.

(** ** The JavaScript primitives the function uses *)

Module JS.

(** An integer, or the [-Infinity] that [Math.max()] returns. *)
Inductive number : Type :=
| NegInfinity : number
| Int : Z -> number.

(** [a + b] *)
Definition add (a b : number) : number :=
  match a, b with
  | Int x, Int y => Int (x + y)
  | _, _ => NegInfinity
  end.

(** [a < b] *)
Definition ltb (a b : number) : bool :=
  match a, b with
  | NegInfinity, NegInfinity => false
  | NegInfinity, Int _ => true
  | Int _, NegInfinity => false
  | Int x, Int y => x <? y
  end.

(** [a > b] *)
Definition gtb (a b : number) : bool := ltb b a.

(** [a <= b] *)
Definition leb (a b : number) : bool :=
  match a, b with
  | NegInfinity, _ => true
  | Int _, NegInfinity => false
  | Int x, Int y => x <=? y
  end.

(** [a === b] *)
Definition strict_eqb (a b : number) : bool :=
  match a, b with
  | NegInfinity, NegInfinity => true
  | Int x, Int y => x =? y
  | _, _ => false
  end.

(** [Math.max(a, b)] *)
Definition max2 (a b : number) : number :=
  if ltb a b then b else a.

(** [Math.max(...xs)]: the running maximum starts from [-Infinity]. *)
Definition Math_max (xs : list Z) : number :=
  fold_left (fun acc x => max2 acc (Int x)) xs NegInfinity.

(** [xs.includes(x)] *)
Definition includes (xs : list Z) (x : Z) : bool :=
  existsb (fun y => y =? x) xs.

(** [xs.length] *)
Definition length {A : Type} (xs : list A) : Z := Z.of_nat (List.length xs).

(** Clamping of a relative index, as [Array.prototype.slice] does for both
    of its arguments: a negative index counts from the end. *)
Definition relative_index (len i : Z) : Z :=
  if i <? 0 then Z.max (len + i) 0 else Z.min i len.

(** [xs.slice(start, end)] *)
Definition slice {A : Type} (xs : list A) (start end_ : Z) : list A :=
  let len := length xs in
  let k := relative_index len start in
  let final := relative_index len end_ in
  firstn (Z.to_nat (final - k)) (skipn (Z.to_nat k) xs).

(** [xs.concat(ys)] *)
Definition concat {A : Type} (xs ys : list A) : list A := xs ++ ys.

(** [String(n)] for an integer [n]: its decimal digits, with a leading
    minus sign when negative. *)
Definition toString (n : Z) : string :=
  NilZero.string_of_int (Z.to_int n).

End JS.

(** ** The option generator *)

(** The object literal [{ label, value }]. *)
Record RowsPerPageOption : Type := mkOption {
  label : string;
  value : Z
}.

(** The callback of both [map] calls:
    [value => ({ label: `Top ${value}`, value })]. *)
Definition toOption (value : Z) : RowsPerPageOption :=
  {| label := "Top " ++ JS.toString value; value := value |}.

Definition defaultOptions : list Z := [3; 5; 10; 20].

Definition maxDefaultOption : JS.number := JS.Math_max defaultOptions.

(** The guard of the outer [if]. *)
Definition in_gap_range (totalCount : Z) : bool :=
  JS.gtb (JS.Int totalCount) (JS.Int 0)
  && JS.leb (JS.Int totalCount) maxDefaultOption
  && negb (JS.includes defaultOptions totalCount).

(** [defaultOptions.filter(option => option < totalCount)] *)
Definition validDefaults (totalCount : Z) : list Z :=
  filter (fun option => option <? totalCount) defaultOptions.

Definition lastValidDefault (totalCount : Z) : JS.number :=
  JS.Math_max (validDefaults totalCount).

(** The statements after the outer [if]: the candidates not above
    [totalCount]. *)
Definition defaultFiltering (totalCount : Z) : list RowsPerPageOption :=
  let validOptions := filter (fun option => option <=? totalCount) defaultOptions in
  map toOption validOptions.

Definition generateRowsPerPageOptions (totalCount : Z) : list RowsPerPageOption :=
  if in_gap_range totalCount then
    let validDefaults := validDefaults totalCount in
    let lastValidDefault := JS.Math_max validDefaults in
    if JS.strict_eqb (JS.Int totalCount) (JS.add lastValidDefault (JS.Int 1)) then
      let validOptions :=
        if JS.length validDefaults >? 1
        then JS.concat (JS.slice validDefaults 0 (-1)) [totalCount]
        else JS.concat validDefaults [totalCount] in
      map toOption validOptions
    else if JS.gtb (JS.Int totalCount) (JS.add lastValidDefault (JS.Int 1)) then
      let validOptions := JS.concat validDefaults [totalCount] in
      map toOption validOptions
    else defaultFiltering totalCount
  else defaultFiltering totalCount.

(** The values of a list of options, in order. *)
Definition values (options : list RowsPerPageOption) : list Z :=
  map value options.

(** ** The component's display decision *)

Section Component.

(** The two callbacks are opaque to the component: it hands them on. *)
Variables PageChangeHandler RowsPerPageChangeHandler : Type.

Record TableFooterPaginationProps : Type := mkProps {
  count : Z;
  rowsPerPage : Z;
  page : Z;
  handleChangePage : PageChangeHandler;
  handleChangeRowsPerPage : RowsPerPageChangeHandler
}.

(** What the rendered [TablePagination] receives from the component; the
    styling and the suppressed labels and actions are constants of the
    source and carry no data. *)
Record TablePaginationElement : Type := mkElement {
  el_rowsPerPageOptions : list RowsPerPageOption;
  el_count : Z;
  el_rowsPerPage : Z;
  el_page : Z;
  el_onPageChange : PageChangeHandler;
  el_onRowsPerPageChange : RowsPerPageChangeHandler
}.

(** [None] is the component's [return null]. *)
Definition TableFooterPagination (props : TableFooterPaginationProps)
  : option TablePaginationElement :=
  let rowsPerPageOptions := generateRowsPerPageOptions (count props) in
  if JS.length rowsPerPageOptions <=? 1 then None
  else Some {| el_rowsPerPageOptions := rowsPerPageOptions;
               el_count := count props;
               el_rowsPerPage := rowsPerPage props;
               el_page := page props;
               el_onPageChange := handleChangePage props;
               el_onRowsPerPageChange := handleChangeRowsPerPage props |}.

End Component.

Arguments mkProps {_ _} _ _ _ _ _.
Arguments count {_ _} _.
Arguments rowsPerPage {_ _} _.
Arguments page {_ _} _.
Arguments handleChangePage {_ _} _.
Arguments handleChangeRowsPerPage {_ _} _.
Arguments mkElement {_ _} _ _ _ _ _ _.
Arguments el_rowsPerPageOptions {_ _} _.
Arguments TableFooterPagination {_ _} _.

(** ** Vocabulary of the specification *)

(** [m] is the largest default candidate strictly below [totalCount]. *)
Definition largest_below (totalCount m : Z) : Prop :=
  In m defaultOptions /\ m < totalCount /\
  forall c, In c defaultOptions -> c < totalCount -> c <= m.

(** The default candidates strictly below [n], in the table's order. *)
Definition candidates_below (n : Z) : list Z :=
  filter (fun c => c <? n) [3; 5; 10; 20].

(** The default candidates not above [n], in the table's order. *)
Definition candidates_upto (n : Z) : list Z :=
  filter (fun c => c <=? n) [3; 5; 10; 20].

(** An option carries the label "Top " followed by its value in decimal. *)
Definition labelled (o : RowsPerPageOption) : Prop :=
  label o = ("Top " ++ JS.toString (value o))%string.

(** A props record with the given count; the other fields are immaterial to
    the display decision. *)
Definition props_of_count (n : Z) : TableFooterPaginationProps unit unit :=
  mkProps n 10 0 tt tt.

(** Case analysis on a count known to lie between 1 and 20. *)
Ltac each_count_upto_20 n :=
  let H := fresh "Hcase" in
  assert (H : n = 1 \/ n = 2 \/ n = 3 \/ n = 4 \/ n = 5 \/ n = 6 \/ n = 7
              \/ n = 8 \/ n = 9 \/ n = 10 \/ n = 11 \/ n = 12 \/ n = 13
              \/ n = 14 \/ n = 15 \/ n = 16 \/ n = 17 \/ n = 18 \/ n = 19
              \/ n = 20) by lia;
  repeat (destruct H as [H | H]); subst n.

(** ** Facts about the primitives *)

Section Primitives.

Lemma includes_In (xs : list Z) (x : Z) :
  JS.includes xs x = true <-> In x xs.
Proof.
  unfold JS.includes. rewrite existsb_exists. split.
  - intros [y [Hy Heq]]. apply Z.eqb_eq in Heq. now subst.
  - intros Hx. exists x. split; [assumption | apply Z.eqb_refl].
Qed.

(** The running maximum, started from a value that is [-Infinity] or
    bounded by [m], ends at [m] as soon as [m] bounds the list and occurs
    in it (or is the starting value). *)
Lemma running_max_reaches (m : Z) (xs : list Z) :
  forall acc,
    (acc = JS.NegInfinity \/ exists a, acc = JS.Int a /\ a <= m) ->
    Forall (fun x => x <= m) xs ->
    In m xs \/ acc = JS.Int m ->
    fold_left (fun acc x => JS.max2 acc (JS.Int x)) xs acc = JS.Int m.
Proof.
  induction xs as [|x xs IH]; intros acc Hacc Hle Hin; simpl.
  - destruct Hin as [[]|Hm]. exact Hm.
  - inversion Hle as [|? ? Hx Hxs]; subst.
    apply IH; [ | exact Hxs | ].
    + right. destruct Hacc as [-> | [a [-> Ha]]]; simpl.
      * exists x. split; [reflexivity | exact Hx].
      * unfold JS.max2; simpl. destruct (a <? x) eqn:E.
        -- exists x. split; [reflexivity | exact Hx].
        -- exists a. split; [reflexivity | exact Ha].
    + destruct Hin as [[Hm | Hm] | Hm].
      * subst x. right.
        destruct Hacc as [-> | [a [-> Ha]]]; unfold JS.max2; simpl.
        -- reflexivity.
        -- destruct (a <? m) eqn:E; [reflexivity|].
           apply Z.ltb_ge in E. f_equal. lia.
      * left. exact Hm.
      * subst acc. right. unfold JS.max2; simpl.
        destruct (m <? x) eqn:E; [|reflexivity].
        apply Z.ltb_lt in E. lia.
Qed.

Lemma Math_max_largest (xs : list Z) (m : Z) :
  In m xs -> Forall (fun x => x <= m) xs -> JS.Math_max xs = JS.Int m.
Proof.
  intros Hin Hle. unfold JS.Math_max.
  apply running_max_reaches; auto.
Qed.

Lemma Math_max_nil : JS.Math_max [] = JS.NegInfinity.
Proof. reflexivity. Qed.

(** [xs.slice(0, -1)] drops the last element. *)
Lemma slice_0_minus1 {A : Type} (xs : list A) :
  JS.slice xs 0 (-1) = removelast xs.
Proof.
  unfold JS.slice, JS.relative_index, JS.length.
  change (0 <? 0) with false. change (-1 <? 0) with true. cbv iota.
  replace (Z.to_nat (Z.min 0 (Z.of_nat (List.length xs)))) with 0%nat by lia.
  rewrite skipn_O, removelast_firstn_len. f_equal. lia.
Qed.

Lemma values_toOption (vs : list Z) : map value (map toOption vs) = vs.
Proof.
  rewrite map_map. simpl. apply map_id.
Qed.

Lemma Forall_labelled_toOption (vs : list Z) : Forall labelled (map toOption vs).
Proof.
  apply Forall_forall. intros o Ho. apply in_map_iff in Ho.
  destruct Ho as [v [<- _]]. reflexivity.
Qed.

End Primitives.

(** ** Facts about the generator's guards *)

Section Guards.

Variable totalCount : Z.

Lemma in_gap_range_iff :
  in_gap_range totalCount = true <->
  0 < totalCount <= 20 /\ ~ In totalCount defaultOptions.
Proof.
  unfold in_gap_range.
  change maxDefaultOption with (JS.Int 20).
  unfold JS.gtb, JS.ltb, JS.leb.
  rewrite !andb_true_iff, negb_true_iff, Z.ltb_lt, Z.leb_le.
  rewrite <- not_true_iff_false, includes_In. tauto.
Qed.

Lemma in_gap_range_false_iff :
  in_gap_range totalCount = false <->
  totalCount <= 0 \/ 20 < totalCount \/ In totalCount defaultOptions.
Proof.
  rewrite <- not_true_iff_false, in_gap_range_iff. split.
  - intros H.
    destruct (Z_le_gt_dec totalCount 0) as [|Hpos]; [now left|].
    destruct (Z_lt_le_dec 20 totalCount) as [|Hle]; [now right; left|].
    right; right.
    destruct (in_dec Z.eq_dec totalCount defaultOptions) as [Hin|Hnin];
      [exact Hin|].
    exfalso. apply H. split; [lia | exact Hnin].
  - intros [H | [H | H]] [Hr Hn]; [lia | lia | contradiction].
Qed.

Lemma validDefaults_In (c : Z) :
  In c (validDefaults totalCount) <-> In c defaultOptions /\ c < totalCount.
Proof.
  unfold validDefaults. rewrite filter_In, Z.ltb_lt. reflexivity.
Qed.

Lemma validDefaults_below :
  Forall (fun c => c < totalCount) (validDefaults totalCount).
Proof.
  apply Forall_forall. intros c Hc. now apply validDefaults_In in Hc.
Qed.

Lemma lastValidDefault_largest (m : Z) :
  largest_below totalCount m -> lastValidDefault totalCount = JS.Int m.
Proof.
  intros [Hin [Hlt Hmax]]. unfold lastValidDefault.
  apply Math_max_largest.
  - apply validDefaults_In. split; assumption.
  - apply Forall_forall. intros c Hc. apply validDefaults_In in Hc.
    destruct Hc as [Hc1 Hc2]. now apply Hmax.
Qed.

(** Below 20 at most the first three candidates are kept. *)
Lemma validDefaults_short :
  totalCount <= 20 -> (List.length (validDefaults totalCount) <= 3)%nat.
Proof.
  intros Hle. unfold validDefaults, defaultOptions. simpl.
  replace (20 <? totalCount) with false by (symmetry; apply Z.ltb_ge; lia).
  destruct (3 <? totalCount), (5 <? totalCount), (10 <? totalCount);
    simpl; lia.
Qed.

End Guards.

(** ** Facts about ascending lists *)

Section Ascending.

Lemma ascending_filter (f : Z -> bool) (xs : list Z) :
  StronglySorted Z.lt xs -> StronglySorted Z.lt (filter f xs).
Proof.
  induction 1 as [|x xs Hs IH Hx]; simpl; [constructor|].
  destruct (f x); [|exact IH].
  constructor; [exact IH|].
  apply Forall_forall. intros y Hy. apply filter_In in Hy.
  rewrite Forall_forall in Hx. now apply Hx.
Qed.

Lemma In_removelast {A : Type} (xs : list A) (z : A) :
  In z (removelast xs) -> In z xs.
Proof.
  induction xs as [|x xs IH]; simpl; [tauto|].
  destruct xs as [|y ys]; [intros []|].
  intros [Hz | Hz]; [now left | right; now apply IH].
Qed.

Lemma ascending_removelast (xs : list Z) :
  StronglySorted Z.lt xs -> StronglySorted Z.lt (removelast xs).
Proof.
  induction 1 as [|x xs Hs IH Hx]; simpl; [constructor|].
  destruct xs as [|y ys]; [constructor|].
  constructor; [exact IH|].
  apply Forall_forall. intros z Hz.
  rewrite Forall_forall in Hx. apply Hx. now apply In_removelast.
Qed.

Lemma ascending_snoc (xs : list Z) (n : Z) :
  StronglySorted Z.lt xs -> Forall (fun c => c < n) xs ->
  StronglySorted Z.lt (xs ++ [n]).
Proof.
  induction 1 as [|x xs Hs IH Hx]; intros Hb; simpl.
  - constructor; constructor.
  - inversion Hb as [|? ? Hxn Hrest]; subst.
    constructor; [now apply IH|].
    apply Forall_app. split; [exact Hx|]. constructor; [exact Hxn|constructor].
Qed.

Lemma ascending_NoDup (xs : list Z) : StronglySorted Z.lt xs -> NoDup xs.
Proof.
  induction 1 as [|x xs Hs IH Hx]; constructor; [|exact IH].
  intros Hin. rewrite Forall_forall in Hx. specialize (Hx x Hin). lia.
Qed.

Lemma Forall_removelast {A : Type} (P : A -> Prop) (xs : list A) :
  Forall P xs -> Forall P (removelast xs).
Proof.
  induction 1 as [|x xs Hx Hxs IH]; simpl; [constructor|].
  destruct xs; [constructor|]. constructor; assumption.
Qed.

Lemma defaultOptions_ascending : StronglySorted Z.lt defaultOptions.
Proof.
  unfold defaultOptions. repeat constructor.
Qed.

End Ascending.

(** ** The generator, branch by branch *)

Section Branches.

Variable totalCount : Z.

(** Outside the gap range the function reaches its last [return]. *)
Lemma generate_default :
  in_gap_range totalCount = false ->
  generateRowsPerPageOptions totalCount
  = map toOption (candidates_upto totalCount).
Proof.
  intros Hguard. unfold generateRowsPerPageOptions. now rewrite Hguard.
Qed.

(** The replace branch: [totalCount === lastValidDefault + 1]. *)
Lemma generate_replace (m : Z) :
  in_gap_range totalCount = true ->
  lastValidDefault totalCount = JS.Int m ->
  totalCount = m + 1 ->
  generateRowsPerPageOptions totalCount
  = map toOption
      ((if JS.length (validDefaults totalCount) >? 1
        then removelast (validDefaults totalCount)
        else validDefaults totalCount) ++ [totalCount]).
Proof.
  intros Hguard Hlast Heq. unfold generateRowsPerPageOptions.
  rewrite Hguard. fold (lastValidDefault totalCount). rewrite Hlast.
  simpl JS.add. simpl JS.strict_eqb.
  replace (totalCount =? m + 1) with true by (symmetry; now apply Z.eqb_eq).
  rewrite slice_0_minus1. unfold JS.concat.
  now destruct (JS.length (validDefaults totalCount) >? 1).
Qed.

(** The append branch: [totalCount > lastValidDefault + 1]. *)
Lemma generate_append (m : Z) :
  in_gap_range totalCount = true ->
  lastValidDefault totalCount = JS.Int m ->
  m + 1 < totalCount ->
  generateRowsPerPageOptions totalCount
  = map toOption (validDefaults totalCount ++ [totalCount]).
Proof.
  intros Hguard Hlast Hgap. unfold generateRowsPerPageOptions.
  rewrite Hguard. fold (lastValidDefault totalCount). rewrite Hlast.
  simpl JS.add. simpl JS.strict_eqb. unfold JS.gtb. simpl JS.ltb.
  replace (totalCount =? m + 1) with false by (symmetry; apply Z.eqb_neq; lia).
  replace (m + 1 <? totalCount) with true by (symmetry; now apply Z.ltb_lt).
  reflexivity.
Qed.

(** Whatever the branch, the values returned are the candidates not above
    [totalCount], or candidates below it (all of them, or all but the last)
    followed by [totalCount] itself. *)
Lemma generate_shape :
  values (generateRowsPerPageOptions totalCount) = candidates_upto totalCount
  \/ (in_gap_range totalCount = true /\
      values (generateRowsPerPageOptions totalCount)
      = validDefaults totalCount ++ [totalCount])
  \/ (in_gap_range totalCount = true /\
      values (generateRowsPerPageOptions totalCount)
      = removelast (validDefaults totalCount) ++ [totalCount]).
Proof.
  unfold generateRowsPerPageOptions, values, defaultFiltering.
  destruct (in_gap_range totalCount) eqn:Hguard.
  - destruct (JS.strict_eqb _ _).
    + rewrite values_toOption, slice_0_minus1. unfold JS.concat.
      destruct (JS.length _ >? 1); [right; right | right; left]; now split.
    + destruct (JS.gtb _ _).
      * rewrite values_toOption. right; left. now split.
      * rewrite values_toOption. now left.
  - rewrite values_toOption. now left.
Qed.

(** Every option the generator returns is built by the [map] callback. *)
Lemma generate_labelled :
  Forall labelled (generateRowsPerPageOptions totalCount).
Proof.
  unfold generateRowsPerPageOptions, defaultFiltering.
  destruct (in_gap_range totalCount);
    [destruct (JS.strict_eqb _ _); [|destruct (JS.gtb _ _)]|];
    apply Forall_labelled_toOption.
Qed.

End Branches.

(** The display decision in terms of the number of options. *)
Lemma TableFooterPagination_None
  {H1 H2 : Type} (props : TableFooterPaginationProps H1 H2) :
  TableFooterPagination props = None <->
  (List.length (generateRowsPerPageOptions (count props)) <= 1)%nat.
Proof.
  unfold TableFooterPagination, JS.length.
  destruct (Z.of_nat _ <=? 1) eqn:E.
  - apply Z.leb_le in E. split; [lia | reflexivity].
  - apply Z.leb_gt in E. split; [discriminate | lia].
Qed.

(** ** Specified behaviour *)

(** C1. For [0 < totalCount <= 20], not a default candidate, and equal to
    one plus the largest default candidate [m] strictly below it, the
    generator returns: when more than one candidate lies strictly below
    [totalCount], the ascending list of those candidates with its last
    element dropped and [totalCount] appended; when exactly one lies below,
    that list with [totalCount] appended; every element is labelled
    "Top {value}". *)
Theorem replace_last_when_adjacent (totalCount m : Z) :
  0 < totalCount <= 20 ->
  ~ In totalCount [3; 5; 10; 20] ->
  largest_below totalCount m ->
  totalCount = m + 1 ->
  StronglySorted Z.lt (candidates_below totalCount)
  /\ ((1 < List.length (candidates_below totalCount))%nat ->
      generateRowsPerPageOptions totalCount
      = map toOption (removelast (candidates_below totalCount) ++ [totalCount]))
  /\ (List.length (candidates_below totalCount) = 1%nat ->
      generateRowsPerPageOptions totalCount
      = map toOption (candidates_below totalCount ++ [totalCount]))
  /\ Forall labelled (generateRowsPerPageOptions totalCount)
  /\ ((1 < List.length (candidates_below totalCount))%nat ->
      values (generateRowsPerPageOptions totalCount)
      = removelast (candidates_below totalCount) ++ [totalCount])
  /\ (List.length (candidates_below totalCount) = 1%nat ->
      values (generateRowsPerPageOptions totalCount)
      = candidates_below totalCount ++ [totalCount]).
Proof.
  intros Hrange Hnot Hlargest Hadj.
  assert (Hguard : in_gap_range totalCount = true)
    by (apply in_gap_range_iff; now split).
  pose proof (generate_replace totalCount m Hguard
                (lastValidDefault_largest totalCount m Hlargest) Hadj) as Hgen.
  change (validDefaults totalCount) with (candidates_below totalCount) in Hgen.
  assert (Hmany : (1 < List.length (candidates_below totalCount))%nat ->
                  generateRowsPerPageOptions totalCount
                  = map toOption
                      (removelast (candidates_below totalCount) ++ [totalCount])).
  { intros Hlen. rewrite Hgen.
    replace (JS.length (candidates_below totalCount) >? 1) with true;
      [reflexivity|].
    symmetry. unfold JS.length. apply Z.gtb_lt. lia. }
  assert (Hone : List.length (candidates_below totalCount) = 1%nat ->
                 generateRowsPerPageOptions totalCount
                 = map toOption (candidates_below totalCount ++ [totalCount])).
  { intros Hlen. rewrite Hgen. unfold JS.length. rewrite Hlen. reflexivity. }
  split; [apply ascending_filter, defaultOptions_ascending|].
  split; [exact Hmany|]. split; [exact Hone|].
  split; [apply generate_labelled|]. split.
  - intros Hlen. rewrite (Hmany Hlen). apply values_toOption.
  - intros Hlen. rewrite (Hone Hlen). apply values_toOption.
Qed.

Lemma replace_last_when_adjacent_witness :
  (0 < 6 <= 20 /\ ~ In 6 [3; 5; 10; 20] /\ largest_below 6 5 /\ 6 = 5 + 1)
  /\ generateRowsPerPageOptions 6 = map toOption [3; 6]
  /\ generateRowsPerPageOptions 4 = map toOption [3; 4]
  /\ values (generateRowsPerPageOptions 6) = [3; 6]
  /\ values (generateRowsPerPageOptions 4) = [3; 4].
Proof.
  assert (H6 : ~ In 6 [3; 5; 10; 20]) by (simpl; lia).
  assert (H4 : ~ In 4 [3; 5; 10; 20]) by (simpl; lia).
  assert (L6 : largest_below 6 5).
  { split; [simpl; tauto | split; [lia | intros c Hc Hlt; simpl in Hc; lia]]. }
  assert (L4 : largest_below 4 3).
  { split; [simpl; tauto | split; [lia | intros c Hc Hlt; simpl in Hc; lia]]. }
  split; [split; [lia | split; [exact H6 | split; [exact L6 | lia]]]|].
  destruct (replace_last_when_adjacent 6 5)
    as [_ [Hdrop [_ [_ [Hdropv _]]]]];
    [lia | exact H6 | exact L6 | lia |].
  destruct (replace_last_when_adjacent 4 3)
    as [_ [_ [Hkeep [_ [_ Hkeepv]]]]];
    [lia | exact H4 | exact L4 | lia |].
  split; [apply Hdrop; vm_compute; lia|].
  split; [apply Hkeep; reflexivity|].
  split; [apply Hdropv; vm_compute; lia|].
  apply Hkeepv; reflexivity.
Defined.

(** C2. For [0 < totalCount <= 20], not a default candidate, with a largest
    default candidate [m] strictly below it and [totalCount > m + 1], the
    generator returns the ascending list of default candidates strictly
    below [totalCount] with [totalCount] appended and nothing dropped, every
    element labelled "Top {value}". *)
Theorem append_when_gap (totalCount m : Z) :
  0 < totalCount <= 20 ->
  ~ In totalCount [3; 5; 10; 20] ->
  largest_below totalCount m ->
  m + 1 < totalCount ->
  generateRowsPerPageOptions totalCount
  = map toOption (candidates_below totalCount ++ [totalCount])
  /\ StronglySorted Z.lt (candidates_below totalCount)
  /\ Forall labelled (generateRowsPerPageOptions totalCount)
  /\ values (generateRowsPerPageOptions totalCount)
     = candidates_below totalCount ++ [totalCount].
Proof.
  intros Hrange Hnot Hlargest Hgap.
  assert (Hguard : in_gap_range totalCount = true)
    by (apply in_gap_range_iff; now split).
  pose proof (generate_append totalCount m Hguard
                (lastValidDefault_largest totalCount m Hlargest) Hgap) as Hgen.
  change (validDefaults totalCount) with (candidates_below totalCount) in Hgen.
  split; [exact Hgen|]. split; [|split].
  - apply ascending_filter, defaultOptions_ascending.
  - apply generate_labelled.
  - rewrite Hgen. apply values_toOption.
Qed.

Lemma append_when_gap_witness :
  (0 < 12 <= 20 /\ ~ In 12 [3; 5; 10; 20] /\ largest_below 12 10
   /\ 10 + 1 < 12)
  /\ generateRowsPerPageOptions 12 = map toOption [3; 5; 10; 12]
  /\ values (generateRowsPerPageOptions 12) = [3; 5; 10; 12].
Proof.
  assert (H12 : ~ In 12 [3; 5; 10; 20]) by (simpl; lia).
  assert (L12 : largest_below 12 10).
  { split; [simpl; tauto | split; [lia | intros c Hc Hlt; simpl in Hc; lia]]. }
  split; [split; [lia | split; [exact H12 | split; [exact L12 | lia]]]|].
  destruct (append_when_gap 12 10) as [Hgen [_ [_ Hvalues]]];
    [lia | exact H12 | exact L12 | lia |].
  split; [exact Hgen | exact Hvalues].
Defined.

(** C3. For [totalCount] that is 0, strictly greater than 20, or one of
    3, 5, 10, 20, the generator returns exactly the default candidates
    filtered to values [<= totalCount], in ascending order, each labelled
    "Top {value}": all four defaults when [totalCount > 20], and the prefix
    of the table ending at [totalCount] when it is itself a candidate. *)
Theorem default_filtering_otherwise (totalCount : Z) :
  totalCount = 0 \/ 20 < totalCount \/ In totalCount [3; 5; 10; 20] ->
  generateRowsPerPageOptions totalCount
  = map toOption (candidates_upto totalCount)
  /\ StronglySorted Z.lt (candidates_upto totalCount)
  /\ Forall labelled (generateRowsPerPageOptions totalCount)
  /\ (20 < totalCount ->
      values (generateRowsPerPageOptions totalCount) = [3; 5; 10; 20])
  /\ (In totalCount [3; 5; 10; 20] ->
      exists rest,
        [3; 5; 10; 20] = values (generateRowsPerPageOptions totalCount) ++ rest
        /\ last (values (generateRowsPerPageOptions totalCount)) 0 = totalCount).
Proof.
  intros Hcase.
  assert (Hgen : generateRowsPerPageOptions totalCount
                 = map toOption (candidates_upto totalCount)).
  { apply generate_default, in_gap_range_false_iff.
    destruct Hcase as [-> | [H | H]]; [left; lia | now right; left | now right; right]. }
  split; [exact Hgen|].
  split; [apply ascending_filter, defaultOptions_ascending|].
  split; [apply generate_labelled|].
  rewrite Hgen. unfold values. rewrite values_toOption. split.
  - intros Hbig. unfold candidates_upto. simpl.
    replace (3 <=? totalCount) with true by (symmetry; apply Z.leb_le; lia).
    replace (5 <=? totalCount) with true by (symmetry; apply Z.leb_le; lia).
    replace (10 <=? totalCount) with true by (symmetry; apply Z.leb_le; lia).
    replace (20 <=? totalCount) with true by (symmetry; apply Z.leb_le; lia).
    reflexivity.
  - simpl. intros [<- | [<- | [<- | [<- | []]]]].
    + exists [5; 10; 20]. now split.
    + exists [10; 20]. now split.
    + exists [20]. now split.
    + exists []. now split.
Qed.

Lemma default_filtering_otherwise_witness :
  (25 = 0 \/ 20 < 25 \/ In 25 [3; 5; 10; 20])
  /\ generateRowsPerPageOptions 25 = map toOption [3; 5; 10; 20]
  /\ generateRowsPerPageOptions 10 = map toOption [3; 5; 10]
  /\ generateRowsPerPageOptions 0 = [].
Proof.
  split; [right; left; lia|].
  split; [|split].
  - destruct (default_filtering_otherwise 25) as [Hgen _];
      [right; left; lia | exact Hgen].
  - destruct (default_filtering_otherwise 10) as [Hgen _];
      [right; right; simpl; tauto | exact Hgen].
  - destruct (default_filtering_otherwise 0) as [Hgen _];
      [now left | exact Hgen].
Defined.

(** C4. The generator returns option values exactly [3,4] for 4; [3,5] for
    5; [3,6] for 6 (5 excluded); [3,5,7] for 7; [3,5,10] for 10; [3,5,11]
    for 11 (10 excluded); [3,5,10,20] for 20; and [3,5,10,20] for 25 (25
    excluded). *)
Theorem enumerated_scenarios :
  values (generateRowsPerPageOptions 4) = [3; 4]
  /\ values (generateRowsPerPageOptions 5) = [3; 5]
  /\ (values (generateRowsPerPageOptions 6) = [3; 6]
      /\ ~ In 5 (values (generateRowsPerPageOptions 6)))
  /\ values (generateRowsPerPageOptions 7) = [3; 5; 7]
  /\ values (generateRowsPerPageOptions 10) = [3; 5; 10]
  /\ (values (generateRowsPerPageOptions 11) = [3; 5; 11]
      /\ ~ In 10 (values (generateRowsPerPageOptions 11)))
  /\ values (generateRowsPerPageOptions 20) = [3; 5; 10; 20]
  /\ (values (generateRowsPerPageOptions 25) = [3; 5; 10; 20]
      /\ ~ In 25 (values (generateRowsPerPageOptions 25))).
Proof.
  repeat split; try reflexivity;
    (vm_compute; intros H; repeat destruct H as [H | H]; try discriminate H;
     exact H).
Qed.

(** C5. For every [totalCount >= 0], the values the generator returns are
    pairwise distinct, strictly ascending, and each at most [totalCount]:
    the generator never produces a value greater than its input. *)
Theorem values_distinct_ascending_bounded (totalCount : Z) :
  0 <= totalCount ->
  NoDup (values (generateRowsPerPageOptions totalCount))
  /\ StronglySorted Z.lt (values (generateRowsPerPageOptions totalCount))
  /\ Forall (fun v => v <= totalCount)
            (values (generateRowsPerPageOptions totalCount)).
Proof.
  intros _.
  assert (Hasc : StronglySorted Z.lt
                   (values (generateRowsPerPageOptions totalCount))
                 /\ Forall (fun v => v <= totalCount)
                           (values (generateRowsPerPageOptions totalCount))).
  { pose proof (validDefaults_below totalCount) as Hbelow.
    pose proof (ascending_filter (fun c => c <? totalCount) _
                  defaultOptions_ascending) as Hsorted.
    fold (validDefaults totalCount) in Hsorted.
    destruct (generate_shape totalCount) as [-> | [[_ ->] | [_ ->]]].
    - split; [apply ascending_filter, defaultOptions_ascending|].
      apply Forall_forall. intros v Hv. apply filter_In in Hv.
      now apply Z.leb_le.
    - split; [now apply ascending_snoc|].
      apply Forall_app. split.
      + eapply Forall_impl; [|exact Hbelow]. simpl. intros; lia.
      + constructor; [lia | constructor].
    - apply (Forall_removelast _ _) in Hbelow.
      split; [apply ascending_snoc; [now apply ascending_removelast | exact Hbelow]|].
      apply Forall_app. split.
      + eapply Forall_impl; [|exact Hbelow]. simpl. intros; lia.
      + constructor; [lia | constructor]. }
  destruct Hasc as [Hs Hb].
  split; [now apply ascending_NoDup | now split].
Qed.

Lemma values_distinct_ascending_bounded_witness :
  0 <= 11
  /\ NoDup (values (generateRowsPerPageOptions 11))
  /\ StronglySorted Z.lt (values (generateRowsPerPageOptions 11))
  /\ Forall (fun v => v <= 11) (values (generateRowsPerPageOptions 11)).
Proof.
  split; [lia|]. apply (values_distinct_ascending_bounded 11). lia.
Defined.

(** C6. Whenever the generator's output for [count] has length at most one,
    the component returns null; in particular for every [count] among 1, 2
    and 3 the output has length at most one and the component returns
    null. *)
Theorem single_option_renders_nothing
  (H1 H2 : Type) (props : TableFooterPaginationProps H1 H2) :
  ((List.length (generateRowsPerPageOptions (count props)) <= 1)%nat ->
   TableFooterPagination props = None)
  /\ (In (count props) [1; 2; 3] ->
      (List.length (generateRowsPerPageOptions (count props)) <= 1)%nat
      /\ TableFooterPagination props = None).
Proof.
  split.
  - apply TableFooterPagination_None.
  - intros Hcount.
    assert (Hlen : (List.length (generateRowsPerPageOptions (count props)) <= 1)%nat).
    { simpl in Hcount.
      destruct Hcount as [<- | [<- | [<- | []]]]; vm_compute; lia. }
    split; [exact Hlen | now apply TableFooterPagination_None].
Qed.

Lemma single_option_renders_nothing_witness :
  (List.length (generateRowsPerPageOptions (count (props_of_count 2))) <= 1)%nat
  /\ In (count (props_of_count 3)) [1; 2; 3]
  /\ TableFooterPagination (props_of_count 2) = None
  /\ TableFooterPagination (props_of_count 3) = None.
Proof.
  assert (Hlen : (List.length
                    (generateRowsPerPageOptions (count (props_of_count 2)))
                  <= 1)%nat) by (vm_compute; lia).
  assert (Hin : In (count (props_of_count 3)) [1; 2; 3]) by (simpl; tauto).
  split; [exact Hlen|]. split; [exact Hin|]. split.
  - exact (proj1 (single_option_renders_nothing unit unit (props_of_count 2))
             Hlen).
  - exact (proj2 (proj2 (single_option_renders_nothing unit unit
                           (props_of_count 3)) Hin)).
Defined.

(** C7. For [totalCount = 0] the generator returns the empty sequence, and
    consequently the component, given a count of 0, returns null. *)
Theorem zero_count_renders_nothing :
  generateRowsPerPageOptions 0 = []
  /\ forall (H1 H2 : Type) (rowsPerPage page : Z) (onPage : H1) (onRows : H2),
       TableFooterPagination (mkProps 0 rowsPerPage page onPage onRows) = None.
Proof.
  split; [reflexivity|]. intros. reflexivity.
Qed.

(** C9. For [totalCount] 1 and 2, where no default candidate is strictly
    below [totalCount], the generator returns the one-element sequence
    holding [{label: "Top {totalCount}", value: totalCount}], not the empty
    sequence, and the component still returns null, its test being that
    there is at most one option. *)
Theorem one_and_two_yield_single_option :
  candidates_below 1 = [] /\ candidates_below 2 = []
  /\ generateRowsPerPageOptions 1 = [ {| label := "Top 1"; value := 1 |} ]
  /\ generateRowsPerPageOptions 2 = [ {| label := "Top 2"; value := 2 |} ]
  /\ generateRowsPerPageOptions 1 <> []
  /\ generateRowsPerPageOptions 2 <> []
  /\ forall (H1 H2 : Type) (rowsPerPage page : Z) (onPage : H1) (onRows : H2),
       TableFooterPagination (mkProps 1 rowsPerPage page onPage onRows) = None
       /\ TableFooterPagination (mkProps 2 rowsPerPage page onPage onRows) = None.
Proof.
  repeat split; try reflexivity; discriminate.
Qed.

(** C10. For every [totalCount >= 0] the generator returns at most four
    options, whatever the input and not only above 20. *)
Theorem at_most_four_options (totalCount : Z) :
  0 <= totalCount ->
  (List.length (generateRowsPerPageOptions totalCount) <= 4)%nat.
Proof.
  intros _.
  rewrite <- (length_map value). fold (values (generateRowsPerPageOptions totalCount)).
  destruct (generate_shape totalCount) as [-> | [[Hguard ->] | [Hguard ->]]].
  - unfold candidates_upto.
    etransitivity; [apply filter_length_le | simpl; lia].
  - apply in_gap_range_iff in Hguard. destruct Hguard as [[_ Hle] _].
    pose proof (validDefaults_short totalCount Hle).
    rewrite length_app. simpl. lia.
  - apply in_gap_range_iff in Hguard. destruct Hguard as [[_ Hle] _].
    pose proof (validDefaults_short totalCount Hle).
    rewrite length_app, removelast_firstn_len, length_firstn. simpl. lia.
Qed.

Lemma at_most_four_options_witness :
  0 <= 19 /\ (List.length (generateRowsPerPageOptions 19) <= 4)%nat.
Proof.
  split; [lia | apply (at_most_four_options 19); lia].
Defined.

(** ** Further facts about the primitives *)

Section MorePrimitives.

(** The running maximum is its starting value or an element of the list. *)
Lemma running_max_origin (xs : list Z) :
  forall acc,
    fold_left (fun acc x => JS.max2 acc (JS.Int x)) xs acc = acc
    \/ exists m, In m xs
                 /\ fold_left (fun acc x => JS.max2 acc (JS.Int x)) xs acc
                    = JS.Int m.
Proof.
  induction xs as [|x xs IH]; intros acc; simpl; [now left|].
  destruct (IH (JS.max2 acc (JS.Int x))) as [Hkeep | [m [Hin Hm]]].
  - rewrite Hkeep. unfold JS.max2. destruct (JS.ltb acc (JS.Int x)).
    + right. exists x. split; [now left | reflexivity].
    + now left.
  - right. exists m. split; [now right | exact Hm].
Qed.

Lemma Math_max_origin (xs : list Z) :
  JS.Math_max xs = JS.NegInfinity
  \/ exists m, In m xs /\ JS.Math_max xs = JS.Int m.
Proof.
  apply running_max_origin.
Qed.

(** The decimal rendering of an integer determines the integer. *)
Lemma toString_inj (a b : Z) : JS.toString a = JS.toString b -> a = b.
Proof.
  unfold JS.toString. intros Hstr. apply DecimalZ.to_int_inj.
  assert (Hnonnil : forall z, Z.to_int z <> Decimal.Pos Decimal.Nil
                              /\ Z.to_int z <> Decimal.Neg Decimal.Nil).
  { intros z. destruct z; simpl; split; try discriminate; intros [= E];
      now apply DecimalPos.Unsigned.to_uint_nonnil in E. }
  assert (E : Some (Z.to_int a) = Some (Z.to_int b)).
  { rewrite <- (NilZero.isi (Z.to_int a)), <- (NilZero.isi (Z.to_int b))
      by apply Hnonnil.
    now rewrite Hstr. }
  now injection E.
Qed.

End MorePrimitives.

(** ** The generator in closed form *)

Section ClosedForm.

Variable totalCount : Z.

Lemma generate_nonpositive :
  totalCount <= 0 -> generateRowsPerPageOptions totalCount = [].
Proof.
  intros Hle. rewrite generate_default
    by (apply in_gap_range_false_iff; now left).
  unfold candidates_upto. simpl.
  replace (3 <=? totalCount) with false by (symmetry; apply Z.leb_gt; lia).
  replace (5 <=? totalCount) with false by (symmetry; apply Z.leb_gt; lia).
  replace (10 <=? totalCount) with false by (symmetry; apply Z.leb_gt; lia).
  replace (20 <=? totalCount) with false by (symmetry; apply Z.leb_gt; lia).
  reflexivity.
Qed.

Lemma generate_above_max :
  20 < totalCount ->
  generateRowsPerPageOptions totalCount = map toOption [3; 5; 10; 20].
Proof.
  intros Hbig. rewrite generate_default
    by (apply in_gap_range_false_iff; now right; left).
  unfold candidates_upto. simpl filter.
  replace (3 <=? totalCount) with true by (symmetry; apply Z.leb_le; lia).
  replace (5 <=? totalCount) with true by (symmetry; apply Z.leb_le; lia).
  replace (10 <=? totalCount) with true by (symmetry; apply Z.leb_le; lia).
  replace (20 <=? totalCount) with true by (symmetry; apply Z.leb_le; lia).
  reflexivity.
Qed.

(** The values returned, by the range [totalCount] falls in. *)
Lemma values_by_range :
  (totalCount <= 0
   /\ values (generateRowsPerPageOptions totalCount) = [])
  \/ (1 <= totalCount <= 3
      /\ values (generateRowsPerPageOptions totalCount) = [totalCount])
  \/ (4 <= totalCount <= 6
      /\ values (generateRowsPerPageOptions totalCount) = [3; totalCount])
  \/ (7 <= totalCount <= 11
      /\ values (generateRowsPerPageOptions totalCount) = [3; 5; totalCount])
  \/ (12 <= totalCount <= 20
      /\ values (generateRowsPerPageOptions totalCount)
         = [3; 5; 10; totalCount])
  \/ (20 < totalCount
      /\ values (generateRowsPerPageOptions totalCount) = [3; 5; 10; 20]).
Proof.
  destruct (Z_le_gt_dec totalCount 0) as [Hneg | Hpos].
  - left. split; [exact Hneg|]. now rewrite generate_nonpositive.
  - destruct (Z_lt_le_dec 20 totalCount) as [Hbig | Hsmall].
    + do 5 right. split; [exact Hbig|]. now rewrite generate_above_max.
    + right. clear - Hpos Hsmall. each_count_upto_20 totalCount;
        first [ left; split; [lia | reflexivity]
              | right; left; split; [lia | reflexivity]
              | right; right; left; split; [lia | reflexivity]
              | right; right; right; left; split; [lia | reflexivity] ].
Qed.

(** The number of options, by the same ranges. *)
Lemma length_by_range :
  List.length (generateRowsPerPageOptions totalCount)
  = if totalCount <=? 0 then 0%nat
    else if totalCount <=? 3 then 1%nat
    else if totalCount <=? 6 then 2%nat
    else if totalCount <=? 11 then 3%nat
    else 4%nat.
Proof.
  rewrite <- (length_map value).
  fold (values (generateRowsPerPageOptions totalCount)).
  destruct values_by_range
    as [[H ->] | [[H ->] | [[H ->] | [[H ->] | [[H ->] | [H ->]]]]]];
    destruct (totalCount <=? 0) eqn:E0; destruct (totalCount <=? 3) eqn:E3;
    destruct (totalCount <=? 6) eqn:E6; destruct (totalCount <=? 11) eqn:E11;
    try reflexivity; exfalso;
    repeat match goal with
           | E : (_ <=? _) = true |- _ => apply Z.leb_le in E
           | E : (_ <=? _) = false |- _ => apply Z.leb_gt in E
           end; lia.
Qed.

End ClosedForm.

(** An option list whose elements all carry the generated label is the
    image of its values under the [map] callback. *)
Lemma labelled_options_of_values (options : list RowsPerPageOption) :
  Forall labelled options -> options = map toOption (values options).
Proof.
  induction 1 as [|o os Ho Hos IH]; simpl; [reflexivity|].
  f_equal; [|exact IH].
  destruct o as [l v]. unfold labelled in Ho. simpl in Ho. now subst l.
Qed.

Lemma generate_of_values (totalCount : Z) (vs : list Z) :
  values (generateRowsPerPageOptions totalCount) = vs ->
  generateRowsPerPageOptions totalCount = map toOption vs.
Proof.
  intros <-. apply labelled_options_of_values, generate_labelled.
Qed.

(** ** Further properties of the generator and of the component *)

(** X1. Closed form of the generator, for every integer count: nothing
    for a count of 0 or below; the count alone from 1 to 3; 3 and the count
    from 4 to 6; 3, 5 and the count from 7 to 11; 3, 5, 10 and the count
    from 12 to 20; the four defaults above 20.  Each option is labelled
    "Top {value}". *)
Theorem options_by_range (totalCount : Z) :
  (totalCount <= 0 ->
   generateRowsPerPageOptions totalCount = []
   /\ values (generateRowsPerPageOptions totalCount) = [])
  /\ (1 <= totalCount <= 3 ->
      generateRowsPerPageOptions totalCount = map toOption [totalCount]
      /\ values (generateRowsPerPageOptions totalCount) = [totalCount])
  /\ (4 <= totalCount <= 6 ->
      generateRowsPerPageOptions totalCount = map toOption [3; totalCount]
      /\ values (generateRowsPerPageOptions totalCount) = [3; totalCount])
  /\ (7 <= totalCount <= 11 ->
      generateRowsPerPageOptions totalCount = map toOption [3; 5; totalCount]
      /\ values (generateRowsPerPageOptions totalCount) = [3; 5; totalCount])
  /\ (12 <= totalCount <= 20 ->
      generateRowsPerPageOptions totalCount
      = map toOption [3; 5; 10; totalCount]
      /\ values (generateRowsPerPageOptions totalCount)
         = [3; 5; 10; totalCount])
  /\ (20 < totalCount ->
      generateRowsPerPageOptions totalCount = map toOption [3; 5; 10; 20]
      /\ values (generateRowsPerPageOptions totalCount) = [3; 5; 10; 20])
  /\ Forall labelled (generateRowsPerPageOptions totalCount).
Proof.
  assert (Hboth : forall vs,
            values (generateRowsPerPageOptions totalCount) = vs ->
            generateRowsPerPageOptions totalCount = map toOption vs
            /\ values (generateRowsPerPageOptions totalCount) = vs).
  { intros vs Hvs. split; [now apply generate_of_values | exact Hvs]. }
  split; [|split; [|split; [|split; [|split; [|split]]]]];
    try apply generate_labelled;
    intros Hrange;
    try change (@nil RowsPerPageOption) with (map toOption []);
    apply Hboth;
    destruct (values_by_range totalCount)
      as [[H E] | [[H E] | [[H E] | [[H E] | [[H E] | [H E]]]]]];
    solve [exact E | exfalso; lia].
Qed.

Lemma options_by_range_witness :
  (-2 <= 0 /\ 1 <= 2 <= 3 /\ 4 <= 5 <= 6 /\ 7 <= 9 <= 11 /\ 12 <= 15 <= 20
   /\ 20 < 30)
  /\ values (generateRowsPerPageOptions (-2)) = []
  /\ values (generateRowsPerPageOptions 2) = [2]
  /\ values (generateRowsPerPageOptions 5) = [3; 5]
  /\ values (generateRowsPerPageOptions 9) = [3; 5; 9]
  /\ values (generateRowsPerPageOptions 15) = [3; 5; 10; 15]
  /\ values (generateRowsPerPageOptions 30) = [3; 5; 10; 20].
Proof.
  split; [lia|]. split; [|split; [|split; [|split; [|split]]]].
  - apply (proj1 (options_by_range (-2))). lia.
  - apply (proj1 (proj2 (options_by_range 2))). lia.
  - apply (proj1 (proj2 (proj2 (options_by_range 5)))). lia.
  - apply (proj1 (proj2 (proj2 (proj2 (options_by_range 9))))). lia.
  - apply (proj1 (proj2 (proj2 (proj2 (proj2 (options_by_range 15)))))). lia.
  - apply (proj1 (proj2 (proj2 (proj2 (proj2 (proj2
             (options_by_range 30))))))). lia.
Defined.

(** X2. For every integer count, the component renders nothing exactly
    when the count is at most 3 (negative counts included), and renders the
    control exactly from 4 on. *)
Theorem renders_from_four_on
  (H1 H2 : Type) (props : TableFooterPaginationProps H1 H2) :
  (TableFooterPagination props = None <-> count props <= 3)
  /\ (TableFooterPagination props <> None <-> 4 <= count props).
Proof.
  assert (Hiff : TableFooterPagination props = None <-> count props <= 3).
  { rewrite TableFooterPagination_None, length_by_range.
    destruct (count props <=? 0) eqn:E0; destruct (count props <=? 3) eqn:E3;
      destruct (count props <=? 6) eqn:E6;
      destruct (count props <=? 11) eqn:E11;
      repeat match goal with
             | E : (_ <=? _) = true |- _ => apply Z.leb_le in E
             | E : (_ <=? _) = false |- _ => apply Z.leb_gt in E
             end; lia. }
  split; [exact Hiff|]. rewrite Hiff. lia.
Qed.

Lemma renders_from_four_on_witness :
  TableFooterPagination (props_of_count (-7)) = None
  /\ TableFooterPagination (props_of_count 4) <> None.
Proof.
  split.
  - apply (proj1 (renders_from_four_on unit unit (props_of_count (-7)))).
    simpl. lia.
  - apply (proj2 (renders_from_four_on unit unit (props_of_count 4))).
    simpl. lia.
Defined.

(** X3. Whenever the component renders, the control receives the
    generator's options for the count and the count, page size, page and
    both callbacks unchanged; the page size is handed on whether or not it
    is among the options.  The options number between two and four and
    start with 3. *)
Theorem rendered_control_receives_props
  (H1 H2 : Type) (props : TableFooterPaginationProps H1 H2)
  (element : TablePaginationElement H1 H2) :
  TableFooterPagination props = Some element ->
  element = mkElement (generateRowsPerPageOptions (count props))
                      (count props) (rowsPerPage props) (page props)
                      (handleChangePage props) (handleChangeRowsPerPage props)
  /\ (2 <= List.length (el_rowsPerPageOptions element) <= 4)%nat
  /\ exists rest, values (el_rowsPerPageOptions element) = 3 :: rest.
Proof.
  intros Hrender.
  assert (Hsome : TableFooterPagination props <> None) by congruence.
  rewrite TableFooterPagination_None in Hsome.
  unfold TableFooterPagination in Hrender.
  destruct (JS.length _ <=? 1); [discriminate|].
  injection Hrender as <-. split; [reflexivity|]. simpl.
  split.
  - rewrite length_by_range in *.
    destruct (count props <=? 0), (count props <=? 3), (count props <=? 6),
      (count props <=? 11); lia.
  - rewrite <- (length_map value) in Hsome.
    fold (values (generateRowsPerPageOptions (count props))) in Hsome.
    destruct (values_by_range (count props))
      as [[H E] | [[H E] | [[H E] | [[H E] | [[H E] | [H E]]]]]];
      rewrite E in *; simpl in Hsome; try lia; eexists; reflexivity.
Qed.

Lemma rendered_control_receives_props_witness :
  TableFooterPagination (props_of_count 4)
  = Some (mkElement (map toOption [3; 4]) 4 10 0 tt tt)
  /\ exists rest, values (map toOption [3; 4]) = 3 :: rest.
Proof.
  assert (Hrender : TableFooterPagination (props_of_count 4)
                    = Some (mkElement (map toOption [3; 4]) 4 10 0 tt tt))
    by reflexivity.
  split; [exact Hrender|].
  exact (proj2 (proj2 (rendered_control_receives_props unit unit
                         (props_of_count 4) _ Hrender))).
Defined.

(** X4. A larger count never yields fewer options. *)
Theorem option_count_monotone (a b : Z) :
  a <= b ->
  (List.length (generateRowsPerPageOptions a)
   <= List.length (generateRowsPerPageOptions b))%nat.
Proof.
  intros Hab. rewrite !length_by_range.
  destruct (a <=? 0) eqn:A0; destruct (a <=? 3) eqn:A3;
    destruct (a <=? 6) eqn:A6; destruct (a <=? 11) eqn:A11;
    destruct (b <=? 0) eqn:B0; destruct (b <=? 3) eqn:B3;
    destruct (b <=? 6) eqn:B6; destruct (b <=? 11) eqn:B11;
    repeat match goal with
           | E : (_ <=? _) = true |- _ => apply Z.leb_le in E
           | E : (_ <=? _) = false |- _ => apply Z.leb_gt in E
           end; lia.
Qed.

Lemma option_count_monotone_witness :
  6 <= 7
  /\ (List.length (generateRowsPerPageOptions 6)
      <= List.length (generateRowsPerPageOptions 7))%nat.
Proof.
  split; [lia | apply (option_count_monotone 6 7); lia].
Defined.

(** X5. For every integer count: from a count of 1 on, the largest option
    is the count itself up to 20 and 20 beyond; the count is among the
    option values exactly when it lies between 1 and 20. *)
Theorem largest_option_is_count_capped (totalCount : Z) :
  (1 <= totalCount ->
   exists front,
     values (generateRowsPerPageOptions totalCount)
     = front ++ [Z.min totalCount 20])
  /\ (In totalCount (values (generateRowsPerPageOptions totalCount))
      <-> 1 <= totalCount <= 20).
Proof.
  destruct (values_by_range totalCount)
    as [[H ->] | [[H ->] | [[H ->] | [[H ->] | [[H ->] | [H ->]]]]]]; split.
  - intros; lia.
  - simpl. lia.
  - intros _. exists []. simpl. f_equal. lia.
  - simpl. lia.
  - intros _. exists [3]. simpl. do 2 f_equal. lia.
  - simpl. lia.
  - intros _. exists [3; 5]. simpl. do 3 f_equal. lia.
  - simpl. lia.
  - intros _. exists [3; 5; 10]. simpl. do 4 f_equal. lia.
  - simpl. lia.
  - intros _. exists [3; 5; 10]. simpl. do 4 f_equal. lia.
  - simpl. lia.
Qed.

Lemma largest_option_is_count_capped_witness :
  1 <= 25
  /\ exists front,
       values (generateRowsPerPageOptions 25) = front ++ [Z.min 25 20].
Proof.
  split; [lia|].
  apply (proj1 (largest_option_is_count_capped 25)). lia.
Defined.

(** X6. From a count of 3 on, the first option is always 3. *)
Theorem smallest_option_is_three (totalCount : Z) :
  3 <= totalCount ->
  exists rest, values (generateRowsPerPageOptions totalCount) = 3 :: rest.
Proof.
  intros Hthree.
  destruct (values_by_range totalCount)
    as [[H ->] | [[H ->] | [[H ->] | [[H ->] | [[H ->] | [H ->]]]]]];
    try (exfalso; lia); try (eexists; reflexivity).
  exists []. f_equal. lia.
Qed.

Lemma smallest_option_is_three_witness :
  3 <= 6 /\ exists rest, values (generateRowsPerPageOptions 6) = 3 :: rest.
Proof.
  split; [lia | apply (smallest_option_is_three 6); lia].
Defined.

(** X7. Every value offered lies between 1 and 20 and is a default
    candidate or the count itself: the generator invents no other page
    size, for any integer input. *)
Theorem values_are_defaults_or_count (totalCount : Z) :
  Forall (fun v => 0 < v <= 20 /\ (In v defaultOptions \/ v = totalCount))
         (values (generateRowsPerPageOptions totalCount)).
Proof.
  assert (Hdefault : forall c, In c defaultOptions -> 0 < c <= 20).
  { intros c Hc. simpl in Hc. lia. }
  assert (Hbelow : Forall (fun v => 0 < v <= 20
                                    /\ (In v defaultOptions \/ v = totalCount))
                          (validDefaults totalCount)).
  { apply Forall_forall. intros v Hv. apply validDefaults_In in Hv.
    destruct Hv as [Hv _]. split; [now apply Hdefault | now left]. }
  destruct (generate_shape totalCount) as [-> | [[Hguard ->] | [Hguard ->]]].
  - apply Forall_forall. intros v Hv. apply filter_In in Hv.
    destruct Hv as [Hv _]. split; [now apply Hdefault | now left].
  - apply in_gap_range_iff in Hguard.
    apply Forall_app. split; [exact Hbelow|].
    constructor; [split; [lia | now right] | constructor].
  - apply in_gap_range_iff in Hguard.
    apply Forall_app. split; [now apply Forall_removelast|].
    constructor; [split; [lia | now right] | constructor].
Qed.

(** X8. A default candidate is offered exactly when it does not exceed the
    count, except that 5 is left out at a count of 6 and 10 at a count of
    11; no other candidate is ever dropped. *)
Theorem default_kept_unless_adjacent (totalCount c : Z) :
  In c defaultOptions ->
  (In c (values (generateRowsPerPageOptions totalCount))
   <-> c <= totalCount
       /\ ~ (totalCount = c + 1 /\ (c = 5 \/ c = 10))).
Proof.
  intros Hc. simpl in Hc.
  destruct (values_by_range totalCount)
    as [[H ->] | [[H ->] | [[H ->] | [[H ->] | [[H ->] | [H ->]]]]]];
    simpl; lia.
Qed.

Lemma default_kept_unless_adjacent_witness :
  In 10 defaultOptions
  /\ ~ In 10 (values (generateRowsPerPageOptions 11))
  /\ In 10 (values (generateRowsPerPageOptions 12)).
Proof.
  assert (Hin : In 10 defaultOptions) by (simpl; tauto).
  split; [exact Hin|]. split.
  - intros Hoffered.
    apply (proj1 (default_kept_unless_adjacent 11 10 Hin)) in Hoffered. lia.
  - apply (proj2 (default_kept_unless_adjacent 12 10 Hin)). lia.
Defined.

(** X9. For every integer count that passes the guard of the outer [if],
    one of the two inner branches is taken: an integer count never falls
    through from a true guard to the final [return], also when
    [Math.max()] of the empty [validDefaults] is [-Infinity], and the
    values returned there always end with the count itself. *)
Theorem gap_range_never_falls_through (totalCount : Z) :
  in_gap_range totalCount = true ->
  (JS.strict_eqb (JS.Int totalCount)
                 (JS.add (lastValidDefault totalCount) (JS.Int 1)) = true
   \/ JS.gtb (JS.Int totalCount)
             (JS.add (lastValidDefault totalCount) (JS.Int 1)) = true)
  /\ exists front,
       generateRowsPerPageOptions totalCount
       = map toOption (front ++ [totalCount])
       /\ values (generateRowsPerPageOptions totalCount)
          = front ++ [totalCount].
Proof.
  intros Hguard.
  assert (Hbranch :
            JS.strict_eqb (JS.Int totalCount)
              (JS.add (lastValidDefault totalCount) (JS.Int 1)) = true
            \/ JS.gtb (JS.Int totalCount)
                 (JS.add (lastValidDefault totalCount) (JS.Int 1)) = true).
  { unfold lastValidDefault.
    destruct (Math_max_origin (validDefaults totalCount))
      as [-> | [m [Hm ->]]].
    - right. reflexivity.
    - apply validDefaults_In in Hm. destruct Hm as [_ Hlt].
      simpl. unfold JS.gtb. simpl.
      destruct (Z.eq_dec totalCount (m + 1)) as [Heq | Hneq].
      + left. now apply Z.eqb_eq.
      + right. apply Z.ltb_lt. lia. }
  split; [exact Hbranch|].
  assert (Hends : exists front,
            generateRowsPerPageOptions totalCount
            = map toOption (front ++ [totalCount])).
  { unfold generateRowsPerPageOptions. rewrite Hguard.
    fold (lastValidDefault totalCount).
    destruct (JS.strict_eqb _ _) eqn:Heq.
    - unfold JS.concat. destruct (JS.length _ >? 1); eexists; reflexivity.
    - destruct Hbranch as [Hb | Hb]; [discriminate|]. rewrite Hb.
      unfold JS.concat. eexists; reflexivity. }
  destruct Hends as [front Hfront]. exists front.
  split; [exact Hfront|]. rewrite Hfront. apply values_toOption.
Qed.

Lemma gap_range_never_falls_through_witness :
  in_gap_range 2 = true
  /\ exists front,
       generateRowsPerPageOptions 2 = map toOption (front ++ [2])
       /\ values (generateRowsPerPageOptions 2) = front ++ [2].
Proof.
  split; [reflexivity|].
  exact (proj2 (gap_range_never_falls_through 2 eq_refl)).
Defined.

(** X10. A label identifies its option: two options produced by the
    generator, for the same or for different counts, that carry the same
    label are the same option. *)
Theorem label_identifies_option
  (count1 count2 : Z) (o1 o2 : RowsPerPageOption) :
  In o1 (generateRowsPerPageOptions count1) ->
  In o2 (generateRowsPerPageOptions count2) ->
  label o1 = label o2 ->
  o1 = o2.
Proof.
  intros Hin1 Hin2 Hlabel.
  pose proof (generate_labelled count1) as Hl1.
  pose proof (generate_labelled count2) as Hl2.
  rewrite Forall_forall in Hl1, Hl2.
  specialize (Hl1 o1 Hin1). specialize (Hl2 o2 Hin2).
  unfold labelled in Hl1, Hl2.
  destruct o1 as [l1 v1], o2 as [l2 v2]. simpl in Hl1, Hl2, Hlabel.
  rewrite Hl1, Hl2 in Hlabel. rewrite Hl1, Hl2.
  injection Hlabel as Hdigits. apply toString_inj in Hdigits. now subst v2.
Qed.

Lemma label_identifies_option_witness :
  In (toOption 3) (generateRowsPerPageOptions 4)
  /\ In (toOption 3) (generateRowsPerPageOptions 25)
  /\ toOption 3 = toOption 3.
Proof.
  assert (Hin1 : In (toOption 3) (generateRowsPerPageOptions 4))
    by (vm_compute; tauto).
  assert (Hin2 : In (toOption 3) (generateRowsPerPageOptions 25))
    by (vm_compute; tauto).
  split; [exact Hin1|]. split; [exact Hin2|].
  exact (label_identifies_option 4 25 _ _ Hin1 Hin2 eq_refl).
Defined.

(** X11. The labels of one result are pairwise distinct, for any integer
    input: the menu never shows the same entry twice. *)
Theorem labels_distinct (totalCount : Z) :
  NoDup (map label (generateRowsPerPageOptions totalCount)).
Proof.
  assert (Hvalues : NoDup (values (generateRowsPerPageOptions totalCount))).
  { destruct (values_by_range totalCount)
      as [[H ->] | [[H ->] | [[H ->] | [[H ->] | [[H ->] | [H ->]]]]]];
      repeat (constructor; [simpl; lia|]); constructor. }
  rewrite (labelled_options_of_values _ (generate_labelled totalCount)).
  rewrite map_map. simpl.
  induction Hvalues as [|v vs Hv Hvs IH]; simpl; constructor; [|exact IH].
  intros Hin. apply in_map_iff in Hin. destruct Hin as [w [Hw Hin]].
  injection Hw as Hdigits. apply toString_inj in Hdigits. now subst w.
Qed.

(** X12. [lastValidDefault] is [-Infinity] exactly for counts of at most 3,
    where no candidate lies strictly below the count; above 3 it is the
    largest default candidate strictly below the count. *)
Theorem lastValidDefault_by_range (totalCount : Z) :
  (lastValidDefault totalCount = JS.NegInfinity <-> totalCount <= 3)
  /\ (3 < totalCount ->
      exists m, largest_below totalCount m
                /\ lastValidDefault totalCount = JS.Int m).
Proof.
  assert (Hsome : 3 < totalCount ->
                  exists m, largest_below totalCount m
                            /\ lastValidDefault totalCount = JS.Int m).
  { intros Hgt.
    assert (Hm : exists m, largest_below totalCount m).
    { unfold largest_below.
      destruct (Z_le_gt_dec totalCount 5);
        [exists 3 | destruct (Z_le_gt_dec totalCount 10);
                    [exists 5 | destruct (Z_le_gt_dec totalCount 20);
                                [exists 10 | exists 20]]];
        (split; [simpl; tauto | split; [lia | intros c Hc Hlt; simpl in Hc; lia]]). }
    destruct Hm as [m Hm]. exists m.
    split; [exact Hm | now apply lastValidDefault_largest]. }
  split; [|exact Hsome]. split.
  - intros Hinf. destruct (Z_le_gt_dec totalCount 3) as [Hle | Hgt];
      [exact Hle|].
    destruct (Hsome ltac:(lia)) as [m [_ Hm]]. congruence.
  - intros Hle. unfold lastValidDefault, validDefaults. simpl.
    replace (3 <? totalCount) with false by (symmetry; apply Z.ltb_ge; lia).
    replace (5 <? totalCount) with false by (symmetry; apply Z.ltb_ge; lia).
    replace (10 <? totalCount) with false by (symmetry; apply Z.ltb_ge; lia).
    replace (20 <? totalCount) with false by (symmetry; apply Z.ltb_ge; lia).
    reflexivity.
Qed.

Lemma lastValidDefault_by_range_witness :
  3 < 8
  /\ lastValidDefault 3 = JS.NegInfinity
  /\ exists m, largest_below 8 m /\ lastValidDefault 8 = JS.Int m.
Proof.
  split; [lia|]. split.
  - apply (proj2 (proj1 (lastValidDefault_by_range 3))). lia.
  - apply (proj2 (lastValidDefault_by_range 8)). lia.
Defined.
